(** * Word counting and coloured rendering (app.js)

    A shallow embedding of [app.js]: [readFileContent], [getWordCounts],
    [colorWord], [printColoredLines] and [processFile], together with the
    parts of the JavaScript runtime they rest on (strings as sequences of
    UTF-16 code units, [split], [toLowerCase], property lookup on a plain
    object, the [+] and comparison operators on the values that occur). *)

From Stdlib Require Import ZArith NArith QArith Lia Lqa.
From stdpp Require Import gmap strings list fin_maps.

Local Close Scope Q_scope.
Local Open Scope N_scope.

(** ** Strings *)

(** A JavaScript string is a sequence of UTF-16 code units. *)
Abbreviation jsstring := (list N).

(** The code units of an ASCII literal. *)
Definition js (s : string) : jsstring :=
  map Ascii.N_of_ascii (String.list_ascii_of_string s).

Definition isDigit (c : N) : bool := (48 <=? c) && (c <=? 57).
Definition isUpper (c : N) : bool := (65 <=? c) && (c <=? 90).
Definition isLower (c : N) : bool := (97 <=? c) && (c <=? 122).

(** [\w] without the [u] and [i] flags: [A-Za-z0-9_], on code units. *)
Definition isWordChar (c : N) : bool :=
  isDigit c || isUpper c || isLower c || (c =? 95).

Definition isAscii (s : jsstring) : Prop := Forall (λ c, c < 128) s.

(** [s.split(/\W+/)]: the pieces of [s] between the maximal runs of
    non-word code units.  A run at the start or at the end of [s] leaves an
    empty piece there, and the empty string splits into one empty piece. *)
Fixpoint splitNonWord (s : jsstring) : list jsstring :=
  match s with
  | [] => [[]]
  | c :: s' =>
      if isWordChar c then
        match splitNonWord s' with
        | p :: ps => (c :: p) :: ps
        | [] => [[c]]
        end
      else
        match s' with
        | c' :: _ => if isWordChar c' then [] :: splitNonWord s' else splitNonWord s'
        | [] => [] :: splitNonWord s'
        end
  end.

(** [Boolean(p)] for a string [p]: false for the empty string only. *)
Definition truthyString (p : jsstring) : bool :=
  match p with [] => false | _ :: _ => true end.

(** [s.split(/\W+/).filter(Boolean)], the tokenizer both functions use. *)
Definition tokenize (s : jsstring) : list jsstring :=
  List.filter truthyString (splitNonWord s).

(** [s.split('\n')]. *)
Fixpoint splitLines (s : jsstring) : list jsstring :=
  match s with
  | [] => [[]]
  | c :: s' =>
      if c =? 10 then [] :: splitLines s'
      else
        match splitLines s' with
        | p :: ps => (c :: p) :: ps
        | [] => [[c]]
        end
  end.

(** [a.join(sep)]. *)
Fixpoint join (sep : jsstring) (a : list jsstring) : jsstring :=
  match a with
  | [] => []
  | [x] => x
  | x :: a' => x ++ sep ++ join sep a'
  end.

(** The lowercase form of one code unit.  Besides the ASCII capitals, two
    code points have a lowercase form that contains an ASCII letter:
    U+0130 (capital I with dot above) becomes [i] followed by U+0307, and
    U+212A (the Kelvin sign) becomes [k].  The lowercase form of every other
    code point contains no word character, and neither does the code point
    itself, so for [split(/\W+/)] it is the same delimiter before and after;
    the model keeps such a code unit as it is. *)
Definition lowerUnit (c : N) : jsstring :=
  if isUpper c then [c + 32]
  else if c =? 304 then [105; 775]
  else if c =? 8490 then [107]
  else [c].

(** [s.toLowerCase()]. *)
Definition toLowerCase (s : jsstring) : jsstring := flat_map lowerUnit s.

(** The lowercase form of an ASCII code unit. *)
Definition lowerAscii (c : N) : N := if isUpper c then c + 32 else c.

(** A text in which neither U+0130 nor U+212A occurs. *)
Definition noSpecialCase (s : jsstring) : Prop :=
  Forall (λ c, c ≠ 304 ∧ c ≠ 8490) s.

(** ** Values *)

(** Numbers: NaN, the infinities and the finite values.  A finite double is
    a rational, and the comparisons of doubles are those of the rationals
    they denote, so a finite number is modelled by its value. *)
Inductive number : Type :=
  | NaN
  | Infinity (negative : bool)
  | Finite (q : Q).

(** The objects a property lookup on a plain object can return without
    anyone having stored them: the members of [Object.prototype]. *)
Inductive builtin : Type :=
  | ObjectConstructor
  | PrototypeMethod (name : jsstring)
  | ObjectPrototype.

(** The values that flow through the program: what a lookup in a table of
    counts can yield, and what [getWordCounts] can store. *)
Inductive value : Type :=
  | VUndefined
  | VNumber (n : number)
  | VString (s : jsstring)
  | VObject (o : builtin).

Definition num (z : Z) : value := VNumber (Finite (inject_Z z)).

(** The function-valued members of [Object.prototype] other than
    [constructor]. *)
Definition prototypeMethods : list jsstring :=
  map js ["hasOwnProperty"; "isPrototypeOf"; "propertyIsEnumerable";
          "toLocaleString"; "toString"; "valueOf";
          "__defineGetter__"; "__defineSetter__";
          "__lookupGetter__"; "__lookupSetter__"]%string.

(** [Object.prototype[k]]. *)
Definition prototypeGet (k : jsstring) : value :=
  if decide (k = js "constructor") then VObject ObjectConstructor
  else if decide (k = js "__proto__") then VObject ObjectPrototype
  else if decide (k ∈ prototypeMethods) then VObject (PrototypeMethod k)
  else VUndefined.

(** The string a built-in object converts to under [+]. *)
Definition builtinToString (o : builtin) : jsstring :=
  match o with
  | ObjectConstructor => js "function Object() { [native code] }"
  | PrototypeMethod name => js "function " ++ name ++ js "() { [native code] }"
  | ObjectPrototype => js "[object Object]"
  end.

(** [Boolean(v)]. *)
Definition toBoolean (v : value) : bool :=
  match v with
  | VUndefined => false
  | VNumber NaN => false
  | VNumber (Infinity _) => true
  | VNumber (Finite q) => negb (Qeq_bool q 0)
  | VString s => truthyString s
  | VObject _ => true
  end.

(** [v || 0]. *)
Definition orZero (v : value) : value :=
  if toBoolean v then v else num 0.

(** [v + 1]: numeric addition on a number, concatenation with ["1"] on a
    string or an object.  The finite sum is exact, as the sum of doubles is
    for the integer counts below 2^53 that [getWordCounts] adds to. *)
Definition plusOne (v : value) : value :=
  match v with
  | VUndefined => VNumber NaN
  | VNumber NaN => VNumber NaN
  | VNumber (Infinity b) => VNumber (Infinity b)
  | VNumber (Finite q) => VNumber (Finite (q + 1)%Q)
  | VString s => VString (s ++ js "1")
  | VObject o => VString (builtinToString o ++ js "1")
  end.

(** ** Plain objects used as tables *)

(** An object literal [{...}]: its own properties; its prototype is
    [Object.prototype]. *)
Abbreviation table := (gmap jsstring value).

(** [t[k]]: the own property, or else the inherited one. *)
Definition getProperty (t : table) (k : jsstring) : value :=
  match t !! k with
  | Some v => v
  | None => prototypeGet k
  end.

(** [t[k] = v].  The inherited data properties are writable, so the
    assignment creates an own property; [__proto__] is an accessor whose
    setter ignores a value that is not an object ([plusOne] never yields
    one) and creates nothing. *)
Definition setProperty (t : table) (k : jsstring) (v : value) : table :=
  if decide (k = js "__proto__") then t else <[k := v]> t.

(** ** getWordCounts *)

(** The [words] of [getWordCounts]:
    [content.toLowerCase().split(/\W+/).filter(Boolean)]. *)
Definition words (content : jsstring) : list jsstring :=
  tokenize (toLowerCase content).

(** One turn of the counting loop:
    [wordCount[word] = (wordCount[word] || 0) + 1]. *)
Definition countWord (wordCount : table) (word : jsstring) : table :=
  setProperty wordCount word (plusOne (orZero (getProperty wordCount word))).

Definition getWordCounts (content : jsstring) : table :=
  foldl countWord ∅ (words content).

(** ** colorWord *)

Inductive color : Type := Blue | Green | Red.

(** The three buckets of the specification and the colour of each. *)
Inductive ColorBucket : Type := Rare | Common | Frequent.

Definition bucketColor (b : ColorBucket) : color :=
  match b with Rare => Blue | Common => Green | Frequent => Red end.

(** [a <= b] on numbers; false as soon as one side is NaN. *)
Definition numLe (a b : number) : bool :=
  match a, b with
  | NaN, _ | _, NaN => false
  | Infinity true, _ => true
  | _, Infinity false => true
  | Infinity false, _ => false
  | _, Infinity true => false
  | Finite p, Finite q => Qle_bool p q
  end.

(** The SGR parameter chalk opens a foreground colour with. *)
Definition colorCode (c : color) : jsstring :=
  match c with Blue => js "34" | Green => js "32" | Red => js "31" end.

Definition ESC : N := 27.

(** ** Effects: the file system, the console and exceptions *)

Inductive fsError : Type := ENOENT | EACCES | EISDIR.

(** What the program can see and change: the file system, which gives
    the decoded text of a path or the error of reading it, and the lines
    [console.log] has written so far. *)
Record world : Type := World {
  files : jsstring → fsError + jsstring;
  console : list jsstring
}.

Inductive outcome (A : Type) : Type :=
  | Returned (a : A)
  | Thrown (e : fsError).
Arguments Returned {A} a.
Arguments Thrown {A} e.

(** A statement or call: from a world to its outcome and the world it
    leaves. *)
Definition io (A : Type) : Type := world → outcome A * world.

Definition ret {A} (a : A) : io A := λ w, (Returned a, w).

Definition bind {A B} (m : io A) (k : A → io B) : io B :=
  λ w, match m w with
       | (Returned a, w') => k a w'
       | (Thrown e, w') => (Thrown e, w')
       end.

(** [fs.readFileSync(path, 'utf8')]. *)
Definition readFileSync (path : jsstring) : io jsstring :=
  λ w, match files w path with
       | inr text => (Returned text, w)
       | inl e => (Thrown e, w)
       end.

(** [console.log(line)]. *)
Definition consoleLog (line : jsstring) : io unit :=
  λ w, (Returned tt, World (files w) (console w ++ [line])).

(** [for (const x of xs) body]. *)
Fixpoint forOf {A} (xs : list A) (body : A → io unit) : io unit :=
  match xs with
  | [] => ret tt
  | x :: xs' => bind (body x) (λ _, forOf xs' body)
  end.

(** ** Notions the properties are stated with *)

(** The tokens of the lines that are rendered, and of all the lines. *)
Definition renderedTokens (content : jsstring) : list jsstring :=
  concat (map tokenize (take 15 (splitLines content))).

Definition lineTokens (content : jsstring) : list jsstring :=
  concat (map tokenize (splitLines content)).

(** Tokenizing line by line and tokenizing the whole content agree when
    the lowercase forms of the tokens of the lines are the [words] that
    [getWordCounts] counts. *)
Definition tokenizationsAgree (content : jsstring) : Prop :=
  map toLowerCase (lineTokens content) = words content.

(** A key that a plain object inherits a property for. *)
Definition inheritedName (k : jsstring) : Prop := prototypeGet k ≠ VUndefined.

(** No stored value is [undefined]. *)
Definition storesDefined (t : table) : Prop :=
  ∀ k v, t !! k = Some v → v ≠ VUndefined.

(** A count as an integer; an entry that is no integer number has none. *)
Definition asInteger (v : value) : option Z :=
  match v with
  | VNumber (Finite (Qmake z 1)) => Some z
  | _ => None
  end.

(** The sum of the counts of a table, when every entry is an integer. *)
Definition sumCounts (t : table) : option Z :=
  map_fold (λ _ v acc, z ← asInteger v; s ← acc; Some (z + s)%Z) (Some 0%Z) t.

(** The number of times [k] occurs in [l]. *)
Definition occurrences (k : jsstring) (l : list jsstring) : nat :=
  length (List.filter (λ w, bool_decide (w = k)) l).

(** Removing the colour sequences (ESC, an opening bracket, digits and
    semicolons, [m]) from a text, as a terminal does when it shows it. *)
Inductive scanState : Type := InText | AfterEscape | InSequence.

Fixpoint stripFrom (st : scanState) (s : jsstring) : jsstring :=
  match s with
  | [] => []
  | c :: s' =>
      match st with
      | InText => if c =? ESC then stripFrom AfterEscape s' else c :: stripFrom InText s'
      | AfterEscape => if c =? 91 then stripFrom InSequence s' else c :: stripFrom InText s'
      | InSequence =>
          if isDigit c || (c =? 59) then stripFrom InSequence s'
          else stripFrom InText s'
      end
  end.

Definition stripColor (s : jsstring) : jsstring := stripFrom InText s.


(** The value of a string of decimal digits, or nothing. *)
Fixpoint digitsValue (acc : Z) (s : jsstring) : option Z :=
  match s with
  | [] => Some acc
  | c :: s' =>
      if isDigit c then digitsValue (10 * acc + Z.of_N (c - 48))%Z s' else None
  end.

(** An instance of [StringToNumber] for the closed examples below: it
    reads a string of decimal digits (exactly, as the runtime does up to
    15 digits) and the empty string, and answers NaN on the others.  The
    runtime agrees with it on every string the examples convert: digit
    strings, and the texts of the built-in functions, which are no numeric
    literals. *)
Definition digitsToNumber (s : jsstring) : number :=
  match digitsValue 0 s with
  | Some z => Finite (inject_Z z)
  | None => NaN
  end.

(** A file system that holds [declaration.txt] with the given text, and one
    that holds nothing. *)
Definition oneFile (text : jsstring) : jsstring → fsError + jsstring :=
  λ path, if decide (path = js "declaration.txt") then inr text else inl ENOENT.

Definition noFile : jsstring → fsError + jsstring := λ _, inl ENOENT.

(** U+212A, the Kelvin sign. *)
Definition kelvin : jsstring := [8490].

(** The text [a], the Kelvin sign, [b]: one word for [getWordCounts], two
    tokens for the line. *)
Definition aKelvinB : jsstring := js "a" ++ kelvin ++ js "b".


(** A code unit of a key: a digit, a lowercase letter or the underscore. *)
Definition isKeyChar (c : N) : bool := isDigit c || isLower c || (c =? 95).

(** The number of line feeds in a text. *)
Definition lineFeeds (s : jsstring) : nat :=
  length (List.filter (λ c, c =? 10) s).

(** What one more turn of the counting loop for the word [k] makes of the
    own property [k]: the assignment of [countWord], read at its key. *)
Definition recount (k : jsstring) (o : option value) : option value :=
  Some (plusOne (orZero (match o with Some v => v | None => prototypeGet k end))).

(** The text of the inherited [constructor], the function [Object]. *)
Definition functionObjectText : jsstring :=
  builtinToString ObjectConstructor.

Section Runtime.

(** The runtime's conversion of a string to a number (ECMA-262
    StringToNumber): it reads a numeric literal and rounds its value to
    the nearest double, NaN when the string is no literal.  The program
    never calls it by name; the comparisons of [colorWord] apply it to a
    count that is a string. *)
Variable StringToNumber : jsstring → number.

(** Whether chalk found a terminal that takes colours (its level is
    above 0). *)
Variable colorSupport : bool.

(** [chalk.blue(s)], [chalk.green(s)], [chalk.red(s)] for a text without
    escape or line-feed characters, as every token is: the text between
    the opening sequence of the colour and the sequence that resets the
    foreground, or the text alone when colours are off or it is empty. *)
Definition chalk (c : color) (s : jsstring) : jsstring :=
  if colorSupport && truthyString s
  then [ESC] ++ js "[" ++ colorCode c ++ js "m" ++ s ++ [ESC] ++ js "[39m"
  else s.

(** The number a count is compared as.  An object is first converted to
    its string. *)
Definition toNumber (v : value) : number :=
  match v with
  | VUndefined => NaN
  | VNumber n => n
  | VString s => StringToNumber s
  | VObject o => StringToNumber (builtinToString o)
  end.

(** [count === 1]: no conversion, only the number 1 is equal to 1. *)
Definition strictEqualsOne (count : value) : bool :=
  match count with
  | VNumber (Finite q) => Qeq_bool q 1
  | _ => false
  end.

(** [count >= 2 && count <= 5]. *)
Definition betweenTwoAndFive (count : value) : bool :=
  numLe (Finite 2) (toNumber count) && numLe (toNumber count) (Finite 5).

Definition colorWord (word : jsstring) (count : value) : jsstring :=
  if strictEqualsOne count then chalk Blue word
  else if betweenTwoAndFive count then chalk Green word
  else chalk Red word.

(** The bucket [colorWord] puts a count in: the branch it takes. *)
Definition classify (count : value) : ColorBucket :=
  if strictEqualsOne count then Rare
  else if betweenTwoAndFive count then Common
  else Frequent.

Definition readFileContent : io jsstring :=
  readFileSync (js "declaration.txt").

(** The [coloredLine] of one line. *)
Definition coloredLine (wordCount : table) (line : jsstring) : jsstring :=
  join (js " ")
    (map (λ word, colorWord word (getProperty wordCount (toLowerCase word)))
         (tokenize line))
  ++ js " ".

Definition printColoredLines (content : jsstring) (wordCount : table) : io unit :=
  let lines := take 15 (splitLines content) in
  forOf lines (λ line, consoleLog (coloredLine wordCount line)).

Definition processFile : io unit :=
  bind readFileContent (λ content,
    let wordCount := getWordCounts content in
    printColoredLines content wordCount).

(** [if (require.main === module) processFile()]. *)
Definition runModule (isMain : bool) : io unit :=
  if isMain then processFile else ret tt.

(** * Properties *)

(** ** Examples of the runtime operations *)

Example splitNonWord_ex1 :
  splitNonWord (js "Hello, hello world!") = [js "Hello"; js "hello"; js "world"; []].
Proof. reflexivity. Qed.

Example splitNonWord_ex2 : splitNonWord (js "  a  ") = [[]; js "a"; []].
Proof. reflexivity. Qed.

Example splitNonWord_ex3 : splitNonWord [] = [[]] ∧ splitNonWord (js " ") = [[]; []].
Proof. split; reflexivity. Qed.


(** ** The tokenizer *)

Lemma splitNonWord_not_nil s : splitNonWord s ≠ [].
Proof.
  induction s as [|c s IH]; simpl; [done|].
  destruct (isWordChar c).
  - destruct (splitNonWord s); done.
  - destruct s as [|c' s']; [done|].
    destruct (isWordChar c'); [done|exact IH].
Qed.

Lemma splitNonWord_cons_word c s :
  isWordChar c = true →
  ∃ p ps, splitNonWord s = p :: ps ∧ splitNonWord (c :: s) = (c :: p) :: ps.
Proof.
  intros Hc. simpl. rewrite Hc.
  destruct (splitNonWord s) as [|p ps] eqn:E.
  - by destruct (splitNonWord_not_nil s).
  - by exists p, ps.
Qed.

Lemma splitNonWord_nonword_cons c c' s :
  isWordChar c = false →
  splitNonWord (c :: c' :: s) =
    if isWordChar c' then [] :: splitNonWord (c' :: s) else splitNonWord (c' :: s).
Proof.
  intros Hc.
  change (splitNonWord (c :: c' :: s))
    with (if isWordChar c then
            match splitNonWord (c' :: s) with
            | p :: ps => (c :: p) :: ps
            | [] => [[c]]
            end
          else if isWordChar c' then [] :: splitNonWord (c' :: s)
               else splitNonWord (c' :: s)).
  by rewrite Hc.
Qed.

Lemma splitNonWord_cons_nonword c s :
  isWordChar c = false →
  ∃ ps, splitNonWord (c :: s) = [] :: ps ∧ List.filter truthyString ps = tokenize s.
Proof.
  revert c. induction s as [|c' s IH]; intros c Hc.
  - exists [[]]. simpl. by rewrite Hc.
  - rewrite splitNonWord_nonword_cons by done.
    destruct (isWordChar c') eqn:Hc'.
    + by exists (splitNonWord (c' :: s)).
    + destruct (IH c' Hc') as [ps [E F]].
      exists ps. split; [done|]. unfold tokenize. by rewrite E.
Qed.

Lemma tokenize_nil : tokenize [] = [].
Proof. reflexivity. Qed.

Lemma tokenize_cons_nonword c s :
  isWordChar c = false → tokenize (c :: s) = tokenize s.
Proof.
  intros Hc. destruct (splitNonWord_cons_nonword c s Hc) as [ps [E F]].
  unfold tokenize at 1. by rewrite E.
Qed.

Lemma splitNonWord_app_nonword s1 c s2 :
  isWordChar c = false →
  ∃ p ps ps',
    splitNonWord s1 = p :: ps ∧
    splitNonWord (s1 ++ c :: s2) = p :: ps' ∧
    List.filter truthyString ps' = List.filter truthyString ps ++ tokenize s2.
Proof.
  intros Hc. induction s1 as [|a s1 IH].
  - destruct (splitNonWord_cons_nonword c s2 Hc) as [ps' [E F]].
    by exists [], [], ps'.
  - destruct IH as (p & ps & ps' & E1 & E2 & F).
    destruct (isWordChar a) eqn:Ha.
    + exists (a :: p), ps, ps'.
      rewrite <- app_comm_cons. simpl. by rewrite Ha, E1, E2.
    + destruct s1 as [|b s1].
      * injection E1 as <- <-.
        exists [], [[]], ps'. split; [by simpl; rewrite Ha|].
        split; [|done].
        change ([a] ++ c :: s2) with (a :: c :: s2).
        rewrite splitNonWord_nonword_cons, Hc by done. exact E2.
      * rewrite <- !app_comm_cons in *.
        rewrite !splitNonWord_nonword_cons by done.
        destruct (isWordChar b) eqn:Hb.
        -- exists [], (p :: ps), (p :: ps').
           rewrite E1, E2. split; [done|]. split; [done|].
           simpl. rewrite F. by destruct (truthyString p).
        -- by exists p, ps, ps'.
Qed.

(** A delimiter between two texts separates their tokens. *)
Lemma tokenize_app_nonword s1 c s2 :
  isWordChar c = false →
  tokenize (s1 ++ c :: s2) = tokenize s1 ++ tokenize s2.
Proof.
  intros Hc.
  destruct (splitNonWord_app_nonword s1 c s2 Hc) as (p & ps & ps' & E1 & E2 & F).
  unfold tokenize at 1 2. rewrite E1, E2. simpl. rewrite F.
  by destruct (truthyString p).
Qed.

Lemma splitNonWord_wordChars s :
  Forall (Forall (λ c, isWordChar c = true)) (splitNonWord s).
Proof.
  induction s as [|c s IH]; simpl.
  - by repeat constructor.
  - destruct (isWordChar c) eqn:Hc.
    + destruct (splitNonWord s) as [|p ps]; [by repeat constructor|].
      inversion IH; subst. constructor; [by constructor|done].
    + destruct s as [|c' s']; [by repeat constructor|].
      destruct (isWordChar c'); [by constructor|done].
Qed.

(** A token is a non-empty run of word characters. *)
Lemma tokenize_wordChars s w :
  w ∈ tokenize s → w ≠ [] ∧ Forall (λ c, isWordChar c = true) w.
Proof.
  unfold tokenize. rewrite list_elem_of_In, filter_In, <- list_elem_of_In.
  intros [Hin Ht]. split; [by destruct w|].
  pose proof (splitNonWord_wordChars s) as H.
  rewrite Forall_forall in H. by apply H.
Qed.

(** ** Lines *)

Lemma splitLines_not_nil s : splitLines s ≠ [].
Proof.
  induction s as [|c s IH]; simpl; [done|].
  destruct (c =? 10); [done|]. by destruct (splitLines s).
Qed.

(** Joining the lines with line feeds gives the content back. *)
Lemma join_splitLines s : join [10] (splitLines s) = s.
Proof.
  induction s as [|c s IH]; simpl; [done|].
  destruct (N.eqb_spec c 10) as [->|Hc].
  - pose proof (splitLines_not_nil s).
    simpl. destruct (splitLines s) as [|p ps]; [done|].
    by rewrite IH.
  - pose proof (splitLines_not_nil s).
    destruct (splitLines s) as [|p [|q ps]].
    + done.
    + simpl in *. by rewrite IH.
    + change (join [10] ((c :: p) :: q :: ps))
        with (c :: (p ++ [10] ++ join [10] (q :: ps))).
      change (join [10] (p :: q :: ps)) with (p ++ [10] ++ join [10] (q :: ps)) in IH.
      by rewrite IH.
Qed.

Lemma tokenize_join_lines ls :
  tokenize (join [10] ls) = concat (map tokenize ls).
Proof.
  induction ls as [|l [|l' ls] IH]; [done| |].
  - simpl. by rewrite app_nil_r.
  - change (join [10] (l :: l' :: ls)) with (l ++ 10 :: join [10] (l' :: ls)).
    rewrite tokenize_app_nonword by done. by rewrite IH.
Qed.

(** A line feed is a delimiter: the tokens of the lines, in order, are the
    tokens of the content. *)
Lemma lineTokens_tokenize content : lineTokens content = tokenize content.
Proof.
  unfold lineTokens. by rewrite <- tokenize_join_lines, join_splitLines.
Qed.

Lemma renderedTokens_lineTokens content w :
  w ∈ renderedTokens content → w ∈ lineTokens content.
Proof.
  unfold renderedTokens, lineTokens. intros Hw.
  rewrite <- (take_drop 15 (splitLines content)), map_app, concat_app.
  apply elem_of_app. by left.
Qed.

(** ** Lowercasing *)

Lemma isAscii_noSpecialCase s : isAscii s → noSpecialCase s.
Proof.
  unfold isAscii, noSpecialCase.
  induction 1 as [|c s Hc _ IH]; constructor; [lia|done].
Qed.

Ltac split_comparisons :=
  repeat match goal with
         | |- context [?a <=? ?b] => destruct (N.leb_spec a b)
         | |- context [?a =? ?b] => destruct (N.eqb_spec a b)
         | H : context [?a <=? ?b] |- _ => destruct (N.leb_spec a b)
         | H : context [?a =? ?b] |- _ => destruct (N.eqb_spec a b)
         end; simpl in *; try done; try lia.

Lemma isWordChar_ascii c : isWordChar c = true → c < 128.
Proof. unfold isWordChar, isDigit, isUpper, isLower. split_comparisons. Qed.

Lemma isWordChar_lowerAscii c : isWordChar (lowerAscii c) = isWordChar c.
Proof.
  unfold lowerAscii, isWordChar, isDigit, isUpper, isLower. split_comparisons.
Qed.

Lemma lowerUnit_noSpecial c :
  c ≠ 304 ∧ c ≠ 8490 → lowerUnit c = [lowerAscii c].
Proof.
  intros [H1 H2]. unfold lowerUnit, lowerAscii.
  destruct (isUpper c); [done|].
  destruct (N.eqb_spec c 304); [done|]. by destruct (N.eqb_spec c 8490).
Qed.

Lemma toLowerCase_noSpecial s :
  noSpecialCase s → toLowerCase s = map lowerAscii s.
Proof.
  induction 1 as [|c s Hc _ IH]; [done|].
  unfold toLowerCase in *. simpl. by rewrite lowerUnit_noSpecial, IH.
Qed.

Lemma wordChars_noSpecialCase w :
  Forall (λ c, isWordChar c = true) w → noSpecialCase w.
Proof.
  induction 1 as [|c s Hc _ IH]; constructor; [|done].
  apply isWordChar_ascii in Hc. lia.
Qed.

Lemma splitNonWord_map (f : N → N) s :
  (∀ c, isWordChar (f c) = isWordChar c) →
  splitNonWord (map f s) = map (map f) (splitNonWord s).
Proof.
  intros Hf. induction s as [|c s IH]; [done|].
  destruct (isWordChar c) eqn:Hc.
  - simpl. rewrite Hf, Hc, IH. by destruct (splitNonWord s).
  - destruct s as [|c' s]; [by simpl; rewrite Hf, Hc|].
    change (map f (c :: c' :: s)) with (f c :: f c' :: map f s).
    rewrite !splitNonWord_nonword_cons by (by rewrite ?Hf).
    rewrite Hf. change (f c' :: map f s) with (map f (c' :: s)).
    rewrite IH. by destruct (isWordChar c').
Qed.

Lemma tokenize_map (f : N → N) s :
  (∀ c, isWordChar (f c) = isWordChar c) →
  tokenize (map f s) = map (map f) (tokenize s).
Proof.
  intros Hf. unfold tokenize. rewrite splitNonWord_map by done.
  induction (splitNonWord s) as [|p ps IH]; [done|].
  simpl. rewrite IH. by destruct p.
Qed.

(** Without the two special code points, lowercasing the content and then
    tokenizing it is tokenizing it and then lowercasing the tokens. *)
Lemma words_noSpecial content :
  noSpecialCase content → words content = map toLowerCase (tokenize content).
Proof.
  intros H. unfold words.
  rewrite toLowerCase_noSpecial, tokenize_map by auto using isWordChar_lowerAscii.
  apply map_ext_in. intros w Hw. symmetry. apply toLowerCase_noSpecial.
  apply wordChars_noSpecialCase.
  by apply (tokenize_wordChars content), list_elem_of_In.
Qed.

(** ** The counting loop *)

Lemma plusOne_defined v : plusOne v ≠ VUndefined.
Proof. by destruct v as [|[| |]| |]. Qed.

Lemma proto_inherited : prototypeGet (js "__proto__") = VObject ObjectPrototype.
Proof. reflexivity. Qed.

Lemma not_inherited_not_proto k : ¬ inheritedName k → k ≠ js "__proto__".
Proof. intros H ->. apply H. unfold inheritedName. by rewrite proto_inherited. Qed.

Lemma not_inherited_get k : ¬ inheritedName k → prototypeGet k = VUndefined.
Proof.
  unfold inheritedName. intros H.
  destruct (prototypeGet k) eqn:E; [done|by destruct H..].
Qed.

Lemma countWord_storesDefined t w :
  storesDefined t → storesDefined (countWord t w).
Proof.
  intros Ht k v. unfold countWord, setProperty.
  destruct (decide (w = js "__proto__")); [apply Ht|].
  rewrite lookup_insert. case_decide; [|apply Ht].
  intros [= <-]. apply plusOne_defined.
Qed.

Lemma countWord_get_same t w :
  storesDefined t → getProperty (countWord t w) w ≠ VUndefined.
Proof.
  intros Ht. unfold countWord, setProperty.
  destruct (decide (w = js "__proto__")) as [->|Hw].
  - unfold getProperty at 1. destruct (t !! js "__proto__") eqn:E; [by eapply Ht|done].
  - unfold getProperty at 1. rewrite lookup_insert_eq. apply plusOne_defined.
Qed.

Lemma countWord_get_kept t w k :
  storesDefined t →
  getProperty t k ≠ VUndefined → getProperty (countWord t w) k ≠ VUndefined.
Proof.
  intros Ht Hk. destruct (decide (w = k)) as [->|Hne].
  - by apply countWord_get_same.
  - unfold countWord, setProperty.
    destruct (decide (w = js "__proto__")); [done|].
    unfold getProperty in *. by rewrite lookup_insert_ne.
Qed.

Lemma counting_storesDefined l t :
  storesDefined t → storesDefined (foldl countWord t l).
Proof.
  revert t. induction l as [|w l IH]; intros t Ht; [done|].
  simpl. by apply IH, countWord_storesDefined.
Qed.

(** Once the loop has met a word, looking the word up gives a value. *)
Lemma counting_get_defined l t w :
  storesDefined t →
  w ∈ l ∨ getProperty t w ≠ VUndefined →
  getProperty (foldl countWord t l) w ≠ VUndefined.
Proof.
  revert t. induction l as [|x l IH]; intros t Ht H.
  - destruct H as [H|H]; [by apply elem_of_nil in H|done].
  - simpl. apply IH; [by apply countWord_storesDefined|].
    destruct H as [H|H].
    + apply elem_of_cons in H as [->|H]; [|by left].
      right. by apply countWord_get_same.
    + right. by apply countWord_get_kept.
Qed.

Lemma countWord_own_kept t w k :
  is_Some (t !! k) → is_Some (countWord t w !! k).
Proof.
  intros Hk. unfold countWord, setProperty.
  destruct (decide (w = js "__proto__")); [done|].
  rewrite lookup_insert. by case_decide.
Qed.

(** A counted word other than [__proto__] is an own property. *)
Lemma counting_own l t w :
  w ≠ js "__proto__" →
  w ∈ l ∨ is_Some (t !! w) →
  is_Some (foldl countWord t l !! w).
Proof.
  intros Hw. revert t. induction l as [|x l IH]; intros t H.
  - destruct H as [H|H]; [by apply elem_of_nil in H|done].
  - simpl. apply IH. destruct H as [H|H].
    + apply elem_of_cons in H as [->|H]; [|by left].
      right. unfold countWord, setProperty.
      rewrite decide_False by done. by rewrite lookup_insert_eq.
    + right. by apply countWord_own_kept.
Qed.

Lemma getWordCounts_get_defined content w :
  w ∈ words content → getProperty (getWordCounts content) w ≠ VUndefined.
Proof.
  intros Hw. apply counting_get_defined; [|by left].
  intros k v. by rewrite lookup_empty.
Qed.

(** ** Counting words that no plain object inherits *)

Lemma plusOne_num n : plusOne (num n) = num (n + 1).
Proof.
  unfold plusOne, num, inject_Z, Qplus. simpl.
  do 2 f_equal. f_equal. lia.
Qed.

Lemma toBoolean_num n : n ≠ 0%Z → toBoolean (num n) = true.
Proof.
  intros Hn. unfold toBoolean, num, inject_Z, Qeq_bool. simpl.
  rewrite Z.mul_1_r. by destruct n.
Qed.

Lemma countWord_first t w :
  ¬ inheritedName w → t !! w = None → countWord t w = <[w := num 1]> t.
Proof.
  intros Hw Ht. unfold countWord, setProperty, getProperty.
  rewrite Ht, (not_inherited_get w Hw).
  by rewrite decide_False by by apply not_inherited_not_proto.
Qed.

Lemma countWord_again t w n :
  ¬ inheritedName w → n ≠ 0%Z → t !! w = Some (num n) →
  countWord t w = <[w := num (n + 1)]> t.
Proof.
  intros Hw Hn Ht. unfold countWord, setProperty, getProperty, orZero.
  rewrite Ht, toBoolean_num, plusOne_num by done.
  by rewrite decide_False by by apply not_inherited_not_proto.
Qed.

Lemma occurrences_snoc k l w :
  occurrences k (l ++ [w]) =
    (occurrences k l + if decide (w = k) then 1 else 0)%nat.
Proof.
  unfold occurrences. rewrite List.filter_app, length_app. simpl.
  destruct (decide (w = k)) as [->|Hne].
  - by rewrite bool_decide_eq_true_2.
  - by rewrite bool_decide_eq_false_2.
Qed.

Lemma occurrences_pos k l : k ∈ l ↔ (0 < occurrences k l)%nat.
Proof.
  unfold occurrences. induction l as [|w l IH]; simpl.
  - split; [by intros ?%elem_of_nil|lia].
  - rewrite elem_of_cons. destruct (decide (w = k)) as [->|Hne].
    + rewrite bool_decide_eq_true_2 by done. simpl. split; [lia|by left].
    + rewrite bool_decide_eq_false_2 by done. rewrite <- IH.
      split; [by intros [->|?]|by right].
Qed.

Lemma sumCounts_step (z1 z2 : value) (y : option Z) :
  (z ← asInteger z1; s ← (z ← asInteger z2; s ← y; Some (z + s)%Z); Some (z + s)%Z) =
  (z ← asInteger z2; s ← (z ← asInteger z1; s ← y; Some (z + s)%Z); Some (z + s)%Z).
Proof.
  destruct (asInteger z1), (asInteger z2), y; simpl; try done.
  f_equal. lia.
Qed.

Lemma sumCounts_empty : sumCounts ∅ = Some 0%Z.
Proof. reflexivity. Qed.

Lemma sumCounts_insert_fresh t k n :
  t !! k = None →
  sumCounts (<[k := num n]> t) = s ← sumCounts t; Some (n + s)%Z.
Proof.
  intros Hk. unfold sumCounts.
  rewrite map_fold_insert_L; [done| |done].
  intros. apply sumCounts_step.
Qed.

Lemma sumCounts_delete t k n :
  t !! k = Some (num n) →
  sumCounts t = s ← sumCounts (delete k t); Some (n + s)%Z.
Proof.
  intros Hk. unfold sumCounts.
  rewrite (map_fold_delete_L _ _ k (num n) t); [done| |done].
  intros. apply sumCounts_step.
Qed.

Lemma sumCounts_insert_again t k n m s :
  t !! k = Some (num n) → sumCounts t = Some s →
  sumCounts (<[k := num m]> t) = Some (s - n + m)%Z.
Proof.
  intros Hk Hs. rewrite (sumCounts_delete t k n Hk) in Hs.
  rewrite <- insert_delete_eq.
  rewrite sumCounts_insert_fresh by apply lookup_delete_eq.
  destruct (sumCounts (delete k t)) as [s'|]; [|done].
  simpl in *. injection Hs as <-. f_equal. lia.
Qed.

(** What the table holds after the loop has run over words none of which
    is inherited: each word with the number of its occurrences, and in
    total as many as there are words. *)
Lemma counting_clean l :
  (∀ w, w ∈ l → ¬ inheritedName w) →
  (∀ k, foldl countWord ∅ l !! k =
        if decide (k ∈ l) then Some (num (Z.of_nat (occurrences k l))) else None)
  ∧ sumCounts (foldl countWord ∅ l) = Some (Z.of_nat (length l)).
Proof.
  induction l as [|w l IH] using rev_ind; intros Hl.
  - split; [|done]. intros k.
    destruct (decide (k ∈ [])) as [H|_]; [by apply elem_of_nil in H|].
    apply lookup_empty.
  - destruct IH as [IHk IHs].
    { intros x Hx. apply Hl, elem_of_app. by left. }
    assert (Hw : ¬ inheritedName w).
    { apply Hl, elem_of_app. right. by apply list_elem_of_singleton. }
    rewrite foldl_app. simpl.
    set (t := foldl countWord ∅ l) in *.
    pose proof (IHk w) as Hlook.
    destruct (decide (w ∈ l)) as [Hin|Hnin].
    + pose proof (proj1 (occurrences_pos w l) Hin) as Hpos.
      rewrite (countWord_again t w (Z.of_nat (occurrences w l)) Hw); [|lia|exact Hlook].
      split.
      * intros k. rewrite lookup_insert, occurrences_snoc.
        destruct (decide (w = k)) as [->|Hne].
        -- rewrite decide_True by (apply elem_of_app; by left).
           do 2 f_equal. lia.
        -- rewrite IHk. destruct (decide (k ∈ l)) as [Hk|Hk].
           ++ rewrite decide_True by (apply elem_of_app; by left).
              do 2 f_equal. lia.
           ++ rewrite decide_False; [done|].
              rewrite elem_of_app, list_elem_of_singleton. by intros [?| ->].
      * rewrite (sumCounts_insert_again t w _ _ _ Hlook IHs).
        f_equal. rewrite length_app. simpl. lia.
    + rewrite (countWord_first t w Hw Hlook).
      assert (Hocc : occurrences w l = 0%nat).
      { destruct (occurrences w l) eqn:E; [done|].
        destruct Hnin. apply occurrences_pos. lia. }
      split.
      * intros k. rewrite lookup_insert, occurrences_snoc.
        destruct (decide (w = k)) as [->|Hne].
        -- rewrite decide_True by (apply elem_of_app; right; by apply list_elem_of_singleton).
           by rewrite Hocc.
        -- rewrite IHk. destruct (decide (k ∈ l)) as [Hk|Hk].
           ++ rewrite decide_True by (apply elem_of_app; by left).
              do 2 f_equal. lia.
           ++ rewrite decide_False; [done|].
              rewrite elem_of_app, list_elem_of_singleton. by intros [?| ->].
      * rewrite (sumCounts_insert_fresh t w 1 Hlook), IHs. simpl.
        f_equal. rewrite length_app. simpl. lia.
Qed.

(** ** The console *)

Lemma forOf_consoleLog {A} (f : A → jsstring) xs w :
  forOf xs (λ x, consoleLog (f x)) w =
    (Returned tt, World (files w) (console w ++ map f xs)).
Proof.
  revert w. induction xs as [|x xs IH]; intros w.
  - simpl. rewrite app_nil_r. by destruct w.
  - simpl. unfold bind, consoleLog at 1. rewrite IH. simpl.
    by rewrite <- app_assoc.
Qed.

Lemma printColoredLines_console content wordCount w :
  printColoredLines content wordCount w =
    (Returned tt,
     World (files w)
       (console w ++ map (coloredLine wordCount) (take 15 (splitLines content)))).
Proof. unfold printColoredLines. apply forOf_consoleLog. Qed.

Lemma colorWord_classify word count :
  colorWord word count = chalk (bucketColor (classify count)) word.
Proof.
  unfold colorWord, classify.
  destruct (strictEqualsOne count); [done|].
  by destruct (betweenTwoAndFive count).
Qed.

(** ** Stripping the colours *)

Lemma stripFrom_wordChars w rest :
  Forall (λ c, isWordChar c = true) w →
  stripFrom InText (w ++ rest) = w ++ stripFrom InText rest.
Proof.
  induction 1 as [|c w Hc _ IH]; [done|].
  simpl. destruct (N.eqb_spec c ESC) as [->|_]; [done|]. by rewrite IH.
Qed.

Lemma stripFrom_chalk c w rest :
  Forall (λ c, isWordChar c = true) w →
  stripFrom InText (chalk c w ++ rest) = w ++ stripFrom InText rest.
Proof.
  intros Hw. unfold chalk.
  destruct (colorSupport && truthyString w); [|by apply stripFrom_wordChars].
  rewrite <- !app_assoc.
  destruct c; simpl; by rewrite stripFrom_wordChars.
Qed.

Lemma stripFrom_space rest :
  stripFrom InText (js " " ++ rest) = js " " ++ stripFrom InText rest.
Proof. reflexivity. Qed.

Lemma stripFrom_joined (paint : jsstring → color) toks rest :
  Forall (Forall (λ c, isWordChar c = true)) toks →
  stripFrom InText (join (js " ") (map (λ t, chalk (paint t) t) toks) ++ rest) =
    join (js " ") toks ++ stripFrom InText rest.
Proof.
  induction toks as [|t [|t' toks] IH]; intros Htoks.
  - done.
  - inversion Htoks; subst. simpl. by apply stripFrom_chalk.
  - inversion Htoks; subst.
    change (join (js " ") (map (λ t, chalk (paint t) t) (t :: t' :: toks)))
      with (chalk (paint t) t ++ js " " ++
            join (js " ") (map (λ t, chalk (paint t) t) (t' :: toks))).
    change (join (js " ") (t :: t' :: toks))
      with (t ++ js " " ++ join (js " ") (t' :: toks)).
    rewrite <- !app_assoc. rewrite stripFrom_chalk by done.
    by rewrite stripFrom_space, IH.
Qed.


Lemma tokenize_all_wordChars s :
  Forall (Forall (λ c, isWordChar c = true)) (tokenize s).
Proof.
  apply Forall_forall. intros w Hw. by apply (tokenize_wordChars s).
Qed.

(** ** getWordCounts *)

Lemma words_ascii content :
  isAscii content → words content = map toLowerCase (tokenize content).
Proof. intros H. by apply words_noSpecial, isAscii_noSpecialCase. Qed.

(** C1, amended.  For every content none of whose words (the tokens of the
    lowercased content) is a name that plain objects inherit, every entry of
    the table [getWordCounts] returns is a positive integer, and the sum of
    the entries is the number of those words; for ASCII content that is the
    number of tokens of the content itself. *)
Theorem getWordCounts_positive_and_sum content :
  (∀ w, w ∈ words content → ¬ inheritedName w) →
  (∀ k v, getWordCounts content !! k = Some v → ∃ n : Z, (0 < n)%Z ∧ v = num n) ∧
  sumCounts (getWordCounts content) = Some (Z.of_nat (length (words content))) ∧
  (isAscii content → length (words content) = length (tokenize content)).
Proof.
  intros Hclean. destruct (counting_clean (words content) Hclean) as [Hk Hs].
  split; [|split].
  - intros k v. unfold getWordCounts. rewrite Hk.
    destruct (decide (k ∈ words content)) as [Hin|]; [|done].
    intros [= <-]. eexists. split; [|done].
    apply occurrences_pos in Hin. lia.
  - exact Hs.
  - intros Hascii. by rewrite words_ascii, length_map.
Qed.

(** C9, amended.  For every content none of whose words (the tokens of the
    lowercased content) is a name that plain objects inherit, the keys of
    the table are exactly those words and the value of each is the number of
    its occurrences among them, a positive integer; for ASCII content the
    words are the lowercased tokens of the content. *)
Theorem getWordCounts_exact content :
  (∀ w, w ∈ words content → ¬ inheritedName w) →
  (∀ k, k ∈ dom (getWordCounts content) ↔ k ∈ words content) ∧
  (∀ k, k ∈ words content →
        getWordCounts content !! k = Some (num (Z.of_nat (occurrences k (words content)))) ∧
        (0 < occurrences k (words content))%nat) ∧
  (isAscii content → words content = map toLowerCase (tokenize content)).
Proof.
  intros Hclean. destruct (counting_clean (words content) Hclean) as [Hk _].
  split; [|split].
  - intros k. rewrite elem_of_dom. unfold getWordCounts. rewrite Hk.
    destruct (decide (k ∈ words content)) as [Hin|Hnin].
    + split; [done|by eexists].
    + split; [by intros [? ?]|done].
  - intros k Hin. unfold getWordCounts. rewrite Hk, decide_True by done.
    split; [done|by apply occurrences_pos].
  - apply words_ascii.
Qed.

(** C10.  Counting ["Hello, hello world!"] gives the table
    [{hello: 2, world: 1}]. *)
Theorem getWordCounts_hello :
  getWordCounts (js "Hello, hello world!") = {[ js "hello" := num 2; js "world" := num 1 ]}.
Proof. vm_compute. reflexivity. Qed.

(** The tokenizations agree on ASCII content. *)
Lemma tokenizationsAgree_ascii content :
  isAscii content → tokenizationsAgree content.
Proof.
  intros H. unfold tokenizationsAgree.
  by rewrite lineTokens_tokenize, words_ascii.
Qed.

(** X17.  If looking up the lowercase form of a token of a rendered line in
    the table built from the whole content gives [undefined], then the
    tokenization of the lines and that of the whole content disagree; for
    ASCII content the lookup of every rendered token gives a value, and the
    token is a key of the table unless it is [__proto__]. *)
Theorem undefined_lookup_means_disagreement content token :
  token ∈ renderedTokens content →
  (getProperty (getWordCounts content) (toLowerCase token) = VUndefined →
   ¬ tokenizationsAgree content) ∧
  (isAscii content →
   getProperty (getWordCounts content) (toLowerCase token) ≠ VUndefined ∧
   (toLowerCase token ≠ js "__proto__" →
    is_Some (getWordCounts content !! toLowerCase token))).
Proof.
  intros Htok%renderedTokens_lineTokens.
  assert (Hword : tokenizationsAgree content → toLowerCase token ∈ words content).
  { intros <-. by apply list_elem_of_fmap_2. }
  split.
  - intros Hundef Hagree.
    by apply (getWordCounts_get_defined content (toLowerCase token)); auto.
  - intros Hascii%tokenizationsAgree_ascii. split.
    + apply getWordCounts_get_defined; auto.
    + intros Hproto. apply counting_own; [done|]. left. auto.
Qed.

(** ** colorWord *)

Lemma strictEqualsOne_number q :
  strictEqualsOne (VNumber (Finite q)) = true ↔ (q == 1)%Q.
Proof. apply Qeq_bool_iff. Qed.

Lemma betweenTwoAndFive_number q :
  betweenTwoAndFive (VNumber (Finite q)) = true ↔ (2 <= q <= 5)%Q.
Proof.
  unfold betweenTwoAndFive. simpl.
  by rewrite andb_true_iff, !Qle_bool_iff.
Qed.

Example classify_examples :
  classify (num 1) = Rare ∧ classify (num 2) = Common ∧ classify (num 5) = Common ∧
  classify (num 6) = Frequent ∧ classify (num 0) = Frequent ∧
  classify VUndefined = Frequent ∧ classify (VNumber NaN) = Frequent.
Proof. repeat split; reflexivity. Qed.


(** ** printColoredLines *)




Lemma splitLines_snoc_newline body :
  splitLines (body ++ [10]) = splitLines body ++ [[]].
Proof.
  induction body as [|c body IH]; [done|].
  simpl. rewrite IH. destruct (c =? 10); [done|].
  pose proof (splitLines_not_nil body).
  by destruct (splitLines body).
Qed.

Lemma coloredLine_empty wordCount : coloredLine wordCount [] = js " ".
Proof. reflexivity. Qed.

(** C6, amended.  When the content ends in a line feed and has at most 15
    lines, the empty line after the last line feed is a line of its own, and
    it is rendered as a line that holds the single space and nothing else. *)
Theorem trailing_newline_rendered (body : jsstring) wordCount w :
  (length (splitLines (body ++ [10%N])) ≤ 15)%nat →
  last (splitLines (body ++ [10])) = Some [] ∧
  ∃ rendered,
    printColoredLines (body ++ [10]) wordCount w =
      (Returned tt, World (files w) (console w ++ rendered)) ∧
    length rendered = length (splitLines (body ++ [10])) ∧
    last rendered = Some (js " ").
Proof.
  intros Hlen. split; [by rewrite splitLines_snoc_newline, last_snoc|].
  exists (map (coloredLine wordCount) (splitLines (body ++ [10]))).
  split; [|split].
  - rewrite printColoredLines_console. by rewrite take_ge.
  - by rewrite length_map.
  - rewrite splitLines_snoc_newline, map_app.
    change (map (coloredLine wordCount) [[]]) with [js " "].
    apply last_snoc.
Qed.

(** ** processFile *)

(** C7.  When [declaration.txt] cannot be read, [processFile] ends with the
    exception of the read and leaves the world as it was: nothing has been
    written to the console.  So does the module run as the main one. *)
Theorem processFile_read_error w e :
  files w (js "declaration.txt") = inl e →
  processFile w = (Thrown e, w) ∧ runModule true w = (Thrown e, w).
Proof.
  intros Hread.
  assert (processFile w = (Thrown e, w)); [|done].
  unfold processFile, bind, readFileContent, readFileSync. by rewrite Hread.
Qed.

(** When the file can be read, the lines are written and nothing is thrown. *)
Lemma processFile_reads w text :
  files w (js "declaration.txt") = inr text →
  processFile w =
    (Returned tt,
     World (files w)
       (console w ++
        map (coloredLine (getWordCounts text)) (take 15 (splitLines text)))).
Proof.
  intros Hread. unfold processFile, bind, readFileContent, readFileSync.
  rewrite Hread. apply printColoredLines_console.
Qed.

(** * Further properties *)

(** ** What the tokenizer keeps *)

Lemma concat_truthy ps : concat (List.filter truthyString ps) = concat ps.
Proof.
  induction ps as [|p ps IH]; [done|].
  destruct p as [|c p]; simpl; by rewrite IH.
Qed.

Lemma concat_splitNonWord s : concat (splitNonWord s) = List.filter isWordChar s.
Proof.
  induction s as [|c s IH]; [done|].
  destruct (isWordChar c) eqn:Hc.
  - destruct (splitNonWord_cons_word c s Hc) as (p & ps & E1 & E2).
    rewrite E2. simpl. rewrite Hc. rewrite E1 in IH. simpl in IH. by rewrite IH.
  - destruct (splitNonWord_cons_nonword c s Hc) as (ps & E & F).
    rewrite E. simpl. rewrite Hc.
    rewrite <- IH, <- (concat_truthy ps), F. unfold tokenize.
    by rewrite concat_truthy.
Qed.

Lemma concat_tokenize s : concat (tokenize s) = List.filter isWordChar s.
Proof. unfold tokenize. by rewrite concat_truthy, concat_splitNonWord. Qed.

Lemma filter_nil_iff (f : N → bool) s :
  List.filter f s = [] ↔ Forall (λ c, f c = false) s.
Proof.
  induction s as [|c s IH]; simpl.
  - split; [by constructor|done].
  - destruct (f c) eqn:E.
    + split; [done|]. intros H. inversion H; congruence.
    + rewrite IH. split; [by constructor|]. intros H. by inversion H.
Qed.

(** X1.  The tokens, one after the other, are the word characters of the
    text in their order: tokenizing drops the delimiters and nothing else,
    and it makes no empty token. *)
Theorem tokenize_keeps_word_characters s :
  concat (tokenize s) = List.filter isWordChar s ∧
  Forall (λ w, w ≠ []) (tokenize s).
Proof.
  split; [apply concat_tokenize|].
  apply Forall_forall. intros w Hw. by apply (tokenize_wordChars s).
Qed.

(** X2.  A text has no token exactly when it has no word character; the
    empty text is one such. *)
Theorem tokenize_nil_iff s :
  tokenize s = [] ↔ Forall (λ c, isWordChar c = false) s.
Proof.
  rewrite <- filter_nil_iff, <- concat_tokenize. split; [by intros ->|].
  intros Hc. destruct (tokenize s) as [|w ws] eqn:E; [done|].
  assert (Hw : w ∈ tokenize s) by (rewrite E; apply list_elem_of_here).
  apply tokenize_wordChars in Hw as [Hw _].
  simpl in Hc. by destruct w.
Qed.

Lemma splitNonWord_word w :
  Forall (λ c, isWordChar c = true) w → splitNonWord w = [w].
Proof.
  induction 1 as [|c w Hc _ IH]; [done|]. simpl. by rewrite Hc, IH.
Qed.

Lemma tokenize_word w :
  w ≠ [] → Forall (λ c, isWordChar c = true) w → tokenize w = [w].
Proof.
  intros Hw Hc. unfold tokenize. rewrite splitNonWord_word by done.
  by destruct w.
Qed.

(** Tokens joined by single spaces tokenize to themselves. *)
Lemma tokenize_join_tokens toks :
  Forall (λ w, w ≠ [] ∧ Forall (λ c, isWordChar c = true) w) toks →
  tokenize (join (js " ") toks) = toks.
Proof.
  induction toks as [|t [|t' toks] IH]; intros H.
  - done.
  - inversion H as [|? ? [? ?] _]; subst. by apply tokenize_word.
  - inversion H as [|? ? [? ?] H']; subst.
    change (join (js " ") (t :: t' :: toks))
      with (t ++ 32 :: join (js " ") (t' :: toks)).
    rewrite tokenize_app_nonword by done.
    by rewrite tokenize_word, IH.
Qed.

Lemma tokenize_tokens s :
  Forall (λ w, w ≠ [] ∧ Forall (λ c, isWordChar c = true) w) (tokenize s).
Proof. apply Forall_forall. intros w Hw. by apply (tokenize_wordChars s). Qed.

(** X3.  A rendered line, its colours stripped, has the tokens of the line
    it was rendered from: rendering changes the delimiters only. *)
Theorem rendered_line_keeps_tokens wordCount line :
  tokenize (stripColor (coloredLine wordCount line)) = tokenize line.
Proof.
  unfold stripColor, coloredLine.
  rewrite (map_ext _ (λ t, chalk (bucketColor
              (classify (getProperty wordCount (toLowerCase t)))) t))
    by (intros; apply colorWord_classify).
  rewrite (stripFrom_joined
             (λ t, bucketColor (classify (getProperty wordCount (toLowerCase t)))))
    by apply tokenize_all_wordChars.
  change (stripFrom InText (js " ")) with [32].
  rewrite tokenize_app_nonword by done.
  rewrite tokenize_nil, app_nil_r.
  apply tokenize_join_tokens, tokenize_tokens.
Qed.

(** ** Lines *)

(** X4.  The tokens that are rendered are the first tokens of the content:
    a line feed only separates tokens.  When the content has at most 15
    lines they are all its tokens. *)
Theorem renderedTokens_prefix content :
  (∃ rest, tokenize content = renderedTokens content ++ rest) ∧
  ((length (splitLines content) ≤ 15)%nat → renderedTokens content = tokenize content).
Proof.
  rewrite <- lineTokens_tokenize. unfold renderedTokens, lineTokens. split.
  - exists (concat (map tokenize (drop 15 (splitLines content)))).
    by rewrite <- concat_app, <- map_app, take_drop.
  - intros Hlen. by rewrite take_ge.
Qed.

Lemma splitLines_length s : length (splitLines s) = S (lineFeeds s).
Proof.
  unfold lineFeeds. induction s as [|c s IH]; [done|].
  simpl. destruct (c =? 10); simpl; [by rewrite IH|].
  pose proof (splitLines_not_nil s).
  destruct (splitLines s); [done|]. simpl in *. by rewrite <- IH.
Qed.

Lemma splitLines_no_line_feed s :
  Forall (Forall (λ c, c ≠ 10)) (splitLines s).
Proof.
  induction s as [|c s IH]; simpl; [by repeat constructor|].
  destruct (N.eqb_spec c 10).
  - by constructor.
  - destruct (splitLines s) as [|p ps]; [by repeat constructor|].
    inversion IH; subst. constructor; [by constructor|done].
Qed.

(** X5.  [printColoredLines] writes min(15, 1 + the number of line feeds of
    the content) lines, whatever the table. *)
Theorem printColoredLines_line_count content wordCount w :
  length (console (snd (printColoredLines content wordCount w))) =
    (length (console w) + Nat.min 15 (S (lineFeeds content)))%nat.
Proof.
  rewrite printColoredLines_console. simpl.
  by rewrite length_app, length_map, length_take, splitLines_length.
Qed.

(** X6.  Splitting into lines loses nothing: no line holds a line feed, and
    the lines joined by line feeds are the content. *)
Theorem splitLines_round_trip s :
  join [10] (splitLines s) = s ∧ Forall (Forall (λ c, c ≠ 10)) (splitLines s).
Proof. split; [apply join_splitLines|apply splitLines_no_line_feed]. Qed.

(** ** The table, key by key *)

Lemma countWord_proto t : countWord t (js "__proto__") = t.
Proof. unfold countWord, setProperty. by rewrite decide_True. Qed.

Lemma countWord_lookup_same t k :
  k ≠ js "__proto__" → countWord t k !! k = recount k (t !! k).
Proof.
  intros Hk. unfold countWord, setProperty, getProperty, recount.
  rewrite decide_False by done. by rewrite lookup_insert_eq.
Qed.

Lemma countWord_lookup_other t w k :
  w ≠ k → countWord t w !! k = t !! k.
Proof.
  intros Hne. unfold countWord, setProperty.
  destruct (decide (w = js "__proto__")); [done|].
  by rewrite lookup_insert_ne.
Qed.

Lemma occurrences_cons k w l :
  occurrences k (w :: l) =
    ((if decide (w = k) then 1 else 0) + occurrences k l)%nat.
Proof.
  unfold occurrences. simpl. destruct (decide (w = k)) as [->|Hne].
  - by rewrite bool_decide_eq_true_2.
  - by rewrite bool_decide_eq_false_2.
Qed.

Lemma occurrences_app k l1 l2 :
  occurrences k (l1 ++ l2) = (occurrences k l1 + occurrences k l2)%nat.
Proof. unfold occurrences. by rewrite List.filter_app, length_app. Qed.

Lemma iter_recount_shift k n o :
  Nat.iter n (recount k) (recount k o) = recount k (Nat.iter n (recount k) o).
Proof. induction n as [|n IH]; [done|]. simpl. by rewrite IH. Qed.

(** The own property [k] after the loop depends on how often [k] occurs
    and on nothing else. *)
Lemma counting_lookup l t k :
  k ≠ js "__proto__" →
  foldl countWord t l !! k = Nat.iter (occurrences k l) (recount k) (t !! k).
Proof.
  intros Hk. revert t. induction l as [|w l IH]; intros t; [done|].
  simpl. rewrite IH, occurrences_cons.
  destruct (decide (w = k)) as [->|Hne].
  - rewrite countWord_lookup_same by done. simpl. by rewrite iter_recount_shift.
  - by rewrite countWord_lookup_other.
Qed.

Lemma counting_lookup_proto l t :
  foldl countWord t l !! js "__proto__" = t !! js "__proto__".
Proof.
  revert t. induction l as [|w l IH]; intros t; [done|].
  simpl. rewrite IH. destruct (decide (w = js "__proto__")) as [->|Hne].
  - by rewrite countWord_proto.
  - by rewrite countWord_lookup_other.
Qed.

(** X7.  For every content, the keys of the table are the words of the
    content other than [__proto__]; that one is never stored. *)
Theorem getWordCounts_keys content k :
  k ∈ dom (getWordCounts content) ↔ k ∈ words content ∧ k ≠ js "__proto__".
Proof.
  rewrite elem_of_dom. unfold getWordCounts.
  destruct (decide (k = js "__proto__")) as [->|Hk].
  - rewrite counting_lookup_proto, lookup_empty.
    split; [by intros [? ?]|by intros [_ ?]].
  - rewrite counting_lookup, lookup_empty, occurrences_pos by done.
    destruct (occurrences k (words content)) as [|n].
    + split; [by intros [? ?]|intros [? _]; lia].
    + split; [intros _; split; [lia|done]|by eexists].
Qed.

Lemma iter_recount_constructor n :
  Nat.iter (S n) (recount (js "constructor")) None =
    Some (VString (functionObjectText ++ repeat 49 (S n))).
Proof.
  induction n as [|n IH]; [done|].
  change (Nat.iter (S (S n)) (recount (js "constructor")) None)
    with (recount (js "constructor") (Nat.iter (S n) (recount (js "constructor")) None)).
  rewrite IH. unfold recount, orZero, plusOne.
  change (toBoolean (VString (functionObjectText ++ repeat 49 (S n)))) with true.
  cbv iota. rewrite <- app_assoc. do 3 f_equal.
  change (js "1") with [49]. symmetry. apply (repeat_cons (S n) 49).
Qed.

Lemma getWordCounts_constructor_lookup content n :
  occurrences (js "constructor") (words content) = S n →
  getWordCounts content !! js "constructor" =
    Some (VString (functionObjectText ++ repeat 49 (S n))).
Proof.
  intros Hn. unfold getWordCounts.
  rewrite counting_lookup, lookup_empty, Hn by done.
  apply iter_recount_constructor.
Qed.

(** X8.  When the word [constructor] occurs in the content, the table
    holds under it not a number but a string: the text of the function
    [Object] followed by one ["1"] for each occurrence. *)
Theorem getWordCounts_constructor_string content :
  js "constructor" ∈ words content →
  getWordCounts content !! js "constructor" =
    Some (VString (functionObjectText ++
                   repeat 49 (occurrences (js "constructor") (words content)))).
Proof.
  intros Hin%occurrences_pos.
  destruct (occurrences (js "constructor") (words content)) as [|n] eqn:E; [lia|].
  by apply getWordCounts_constructor_lookup.
Qed.

(** ** How counting composes *)

Lemma toLowerCase_app a b : toLowerCase (a ++ b) = toLowerCase a ++ toLowerCase b.
Proof. unfold toLowerCase. apply flat_map_app. Qed.

Lemma words_app_space a b : words (a ++ js " " ++ b) = words a ++ words b.
Proof.
  unfold words. rewrite !toLowerCase_app.
  change (toLowerCase (js " ")) with [32]. by apply tokenize_app_nonword.
Qed.

Lemma counting_swap l1 l2 :
  foldl countWord ∅ (l1 ++ l2) = foldl countWord ∅ (l2 ++ l1).
Proof.
  apply map_eq. intros k. destruct (decide (k = js "__proto__")) as [->|Hk].
  - by rewrite !counting_lookup_proto.
  - rewrite !counting_lookup, !occurrences_app by done.
    by rewrite Nat.add_comm.
Qed.

(** X9.  The order of the text does not matter to the table: two texts
    separated by a space give the same keys and values in either order. *)
Theorem getWordCounts_order a b :
  getWordCounts (a ++ js " " ++ b) = getWordCounts (b ++ js " " ++ a).
Proof. unfold getWordCounts. rewrite !words_app_space. apply counting_swap. Qed.

(** X10.  Counts add up: for two texts separated by a space, none of whose
    words is inherited, every word of either is counted as often as it
    occurs in the first plus as often as it occurs in the second. *)
Theorem getWordCounts_additive a b k :
  (∀ w, w ∈ words a ++ words b → ¬ inheritedName w) →
  k ∈ words a ++ words b →
  getWordCounts (a ++ js " " ++ b) !! k =
    Some (num (Z.of_nat (occurrences k (words a) + occurrences k (words b)))).
Proof.
  intros Hclean Hk. unfold getWordCounts. rewrite words_app_space.
  destruct (counting_clean (words a ++ words b) Hclean) as [Hlook _].
  by rewrite Hlook, decide_True, occurrences_app.
Qed.

Lemma lowerUnit_idempotent c : flat_map lowerUnit (lowerUnit c) = lowerUnit c.
Proof.
  unfold lowerUnit at 2 3. unfold isUpper.
  destruct (N.leb_spec 65 c); destruct (N.leb_spec c 90);
    destruct (N.eqb_spec c 304); destruct (N.eqb_spec c 8490);
    subst; try done; try lia;
    simpl; rewrite app_nil_r; unfold lowerUnit, isUpper; split_comparisons.
Qed.

Lemma toLowerCase_idempotent s : toLowerCase (toLowerCase s) = toLowerCase s.
Proof.
  unfold toLowerCase. induction s as [|c s IH]; [done|].
  simpl. by rewrite flat_map_app, lowerUnit_idempotent, IH.
Qed.

(** X11.  Counting does not see letter case: the lowercased content gives
    the same table as the content. *)
Theorem getWordCounts_case_insensitive content :
  getWordCounts (toLowerCase content) = getWordCounts content.
Proof. unfold getWordCounts, words. by rewrite toLowerCase_idempotent. Qed.

Lemma splitNonWord_Forall (P : N → Prop) s :
  Forall P s → Forall (Forall P) (splitNonWord s).
Proof.
  induction 1 as [|c s Hc _ IH]; simpl; [by repeat constructor|].
  destruct (isWordChar c).
  - destruct (splitNonWord s) as [|p ps]; [by repeat constructor|].
    inversion IH; subst. constructor; [by constructor|done].
  - destruct s as [|c' s']; [by repeat constructor|].
    destruct (isWordChar c'); [by constructor|done].
Qed.

Lemma lowerUnit_not_upper c : Forall (λ d, isUpper d = false) (lowerUnit c).
Proof.
  unfold lowerUnit. destruct (isUpper c) eqn:E.
  - repeat constructor. unfold isUpper in *. split_comparisons.
  - destruct (c =? 304); [by repeat constructor|].
    destruct (c =? 8490); by repeat constructor.
Qed.

Lemma toLowerCase_not_upper s : Forall (λ d, isUpper d = false) (toLowerCase s).
Proof.
  unfold toLowerCase. induction s as [|c s IH]; simpl; [done|].
  apply Forall_app. split; [apply lowerUnit_not_upper|done].
Qed.

(** X12.  Every key of the table is a non-empty string of lowercase
    letters, digits and underscores. *)
Theorem getWordCounts_key_shape content k :
  k ∈ dom (getWordCounts content) →
  k ≠ [] ∧ Forall (λ c, isKeyChar c = true) k.
Proof.
  intros Hk. assert (Hw : k ∈ words content).
  { apply elem_of_dom in Hk. unfold getWordCounts in Hk.
    destruct (decide (k = js "__proto__")) as [->|Hne].
    - rewrite counting_lookup_proto, lookup_empty in Hk. by destruct Hk.
    - rewrite counting_lookup, lookup_empty in Hk by done.
      apply occurrences_pos.
      destruct (occurrences k (words content)); [by destruct Hk|lia]. }
  pose proof (tokenize_wordChars _ _ Hw) as [Hne Hword]. split; [done|].
  assert (Hlow : Forall (λ d, isUpper d = false) k).
  { pose proof (splitNonWord_Forall _ _ (toLowerCase_not_upper content)) as H.
    rewrite Forall_forall in H. apply H.
    unfold words, tokenize in Hw.
    apply list_elem_of_In, filter_In in Hw as [Hw _]. by apply list_elem_of_In. }
  rewrite Forall_forall in *. intros c Hc.
  specialize (Hword c Hc). specialize (Hlow c Hc).
  unfold isWordChar, isKeyChar in *. rewrite Hlow in Hword.
  by rewrite orb_false_r in Hword.
Qed.

(** ** From the counts to the colours *)

Lemma classify_count (n : nat) :
  classify (num (Z.of_nat n)) =
    if decide (n = 1%nat) then Rare
    else if decide (2 ≤ n ≤ 5)%nat then Common
    else Frequent.
Proof.
  unfold classify.
  destruct (strictEqualsOne (num (Z.of_nat n))) eqn:E1.
  - apply strictEqualsOne_number in E1. unfold Qeq in E1. simpl in E1.
    by rewrite decide_True by lia.
  - assert (n ≠ 1%nat) by (intros ->; by vm_compute in E1).
    rewrite decide_False by done.
    destruct (betweenTwoAndFive (num (Z.of_nat n))) eqn:E2.
    + apply betweenTwoAndFive_number in E2. unfold Qle in E2. simpl in E2.
      by rewrite decide_True by lia.
    + rewrite decide_False; [done|]. intros [? ?].
      assert (betweenTwoAndFive (num (Z.of_nat n)) = true); [|congruence].
      apply betweenTwoAndFive_number. unfold Qle. simpl. lia.
Qed.

(** X13.  End to end, for ASCII content none of whose words is inherited:
    a rendered token is blue when its lowercase form occurs once in the
    whole content, green when it occurs two to five times, and red when it
    occurs more often. *)
Theorem rendered_token_colour content token :
  (∀ w, w ∈ words content → ¬ inheritedName w) →
  isAscii content →
  token ∈ renderedTokens content →
  let n := occurrences (toLowerCase token) (words content) in
  (1 ≤ n)%nat ∧
  colorWord token (getProperty (getWordCounts content) (toLowerCase token)) =
    chalk (if decide (n = 1%nat) then Blue
           else if decide (2 ≤ n ≤ 5)%nat then Green else Red) token.
Proof.
  intros Hclean Hascii Htok n.
  assert (Hin : toLowerCase token ∈ words content).
  { rewrite <- (tokenizationsAgree_ascii content Hascii).
    by apply list_elem_of_fmap_2, renderedTokens_lineTokens. }
  destruct (counting_clean (words content) Hclean) as [Hlook _].
  specialize (Hlook (toLowerCase token)). rewrite decide_True in Hlook by done.
  split; [by apply occurrences_pos|].
  unfold getProperty, getWordCounts. rewrite Hlook.
  rewrite colorWord_classify, classify_count. fold n.
  destruct (decide (n = 1%nat)); [done|]. by destruct (decide (2 ≤ n ≤ 5)%nat).
Qed.

(** X14.  For ASCII content, a rendered token that is the word
    [constructor] in any letter case is red however often it occurs, once
    included: its count is the string of X8, which converts to NaN. *)
Theorem constructor_token_red content token :
  (∀ tail, StringToNumber (functionObjectText ++ tail) = NaN) →
  isAscii content →
  token ∈ renderedTokens content →
  toLowerCase token = js "constructor" →
  colorWord token (getProperty (getWordCounts content) (toLowerCase token)) =
    chalk Red token.
Proof.
  intros Hnan Hascii Htok Hlow.
  assert (Hin : js "constructor" ∈ words content).
  { rewrite <- Hlow, <- (tokenizationsAgree_ascii content Hascii).
    by apply list_elem_of_fmap_2, renderedTokens_lineTokens. }
  apply occurrences_pos in Hin.
  destruct (occurrences (js "constructor") (words content)) as [|n] eqn:E; [lia|].
  rewrite Hlow. unfold getProperty.
  rewrite (getWordCounts_constructor_lookup content n E).
  assert (Hout : betweenTwoAndFive
                   (VString (functionObjectText ++ repeat 49 (S n))) = false).
  { unfold betweenTwoAndFive, toNumber. by rewrite Hnan. }
  unfold colorWord. by rewrite Hout.
Qed.

(** ** colorWord alone *)

Lemma stripFrom_plain w rest :
  Forall (λ c, c ≠ ESC) w →
  stripFrom InText (w ++ rest) = w ++ stripFrom InText rest.
Proof.
  induction 1 as [|c w Hc _ IH]; [done|].
  simpl. destruct (N.eqb_spec c ESC); [done|]. by rewrite IH.
Qed.

(** X15.  [colorWord] only decorates: for a word without escape and
    line-feed characters, whatever the count, stripping the colours from
    its result gives the word back. *)
Theorem colorWord_strip word count :
  Forall (λ c, c ≠ ESC ∧ c ≠ 10) word →
  stripColor (colorWord word count) = word.
Proof.
  intros Hword.
  assert (Hesc : Forall (λ c, c ≠ ESC) word).
  { induction Hword as [|c w [Hc _] _ IH]; by constructor. }
  rewrite colorWord_classify. unfold stripColor, chalk.
  destruct (colorSupport && truthyString word).
  - destruct (bucketColor (classify count)); simpl;
      rewrite stripFrom_plain by done; simpl; by rewrite app_nil_r.
  - rewrite <- (app_nil_r word) at 1. rewrite stripFrom_plain by done.
    apply app_nil_r.
Qed.

(** ** processFile *)

(** X16.  [processFile] throws exactly when [declaration.txt] cannot be
    read, and then with the error of the read; otherwise it returns.  In
    both cases it leaves the file system as it was and keeps what the
    console already held. *)
Theorem processFile_outcome w :
  (∀ e, fst (processFile w) = Thrown e ↔ files w (js "declaration.txt") = inl e) ∧
  (fst (processFile w) = Returned tt ↔ ∃ text, files w (js "declaration.txt") = inr text) ∧
  files (snd (processFile w)) = files w ∧
  ∃ written, console (snd (processFile w)) = console w ++ written.
Proof.
  destruct (files w (js "declaration.txt")) as [e'|text] eqn:Hread.
  - assert (E : processFile w = (Thrown e', w)).
    { unfold processFile, bind, readFileContent, readFileSync. by rewrite Hread. }
    rewrite E. simpl. split; [|split; [|split]].
    + intros e. split; congruence.
    + split; [done|]. by intros [? ?].
    + done.
    + exists []. by rewrite app_nil_r.
  - rewrite (processFile_reads w text Hread). simpl. split; [|split; [|split]].
    + intros e. split; discriminate.
    + split; [by eexists|done].
    + done.
    + by eexists.
Qed.

End Runtime.

(** ** Closed instances *)

Ltac each_word H :=
  repeat (apply elem_of_cons in H as [->|H]);
  [ intros Hinh; apply Hinh; vm_compute; reflexivity ..
  | by apply elem_of_nil in H ].

(** C1 at ["Hello, hello world!"]: no word is inherited, and the counts
    sum to 3. *)
Lemma getWordCounts_positive_and_sum_witness :
  (∀ w, w ∈ words (js "Hello, hello world!") → ¬ inheritedName w) ∧
  sumCounts (getWordCounts (js "Hello, hello world!")) = Some 3%Z.
Proof.
  assert (H : ∀ w, w ∈ words (js "Hello, hello world!") → ¬ inheritedName w).
  { intros w Hw. vm_compute in Hw. each_word Hw. }
  split; [exact H|].
  exact (proj1 (proj2 (getWordCounts_positive_and_sum (js "Hello, hello world!") H))).
Defined.

(** C1 as stated fails.  For the Kelvin sign the counts sum to 1 while the
    content has no token; for [__proto__] the table is empty, so the counts
    sum to 0, while the content has one token. *)
Lemma getWordCounts_sum_counterexample :
  (sumCounts (getWordCounts kelvin) = Some 1%Z ∧ tokenize kelvin = []) ∧
  (sumCounts (getWordCounts (js "__proto__")) = Some 0%Z ∧
   tokenize (js "__proto__") = [js "__proto__"]).
Proof. repeat split; vm_compute; reflexivity. Qed.

(** What the loop stores for [constructor]: the text of the inherited
    function with ["1"] appended, not a number. *)
Lemma getWordCounts_constructor :
  getWordCounts (js "constructor") =
    {[ js "constructor" := VString (js "function Object() { [native code] }1") ]} ∧
  sumCounts (getWordCounts (js "constructor")) = None.
Proof. split; vm_compute; reflexivity. Qed.

(** C9 as stated fails at the Kelvin sign: the content has no token, so
    none to lowercase, yet the table has the key [k]. *)
Lemma getWordCounts_exact_counterexample :
  map toLowerCase (tokenize kelvin) = [] ∧
  getWordCounts kelvin !! js "k" = Some (num 1).
Proof. split; vm_compute; reflexivity. Qed.

(** C9 at ["Hello, hello world!"]: [hello] is a key with the value 2. *)
Lemma getWordCounts_exact_witness :
  (∀ w, w ∈ words (js "Hello, hello world!") → ¬ inheritedName w) ∧
  getWordCounts (js "Hello, hello world!") !! js "hello" = Some (num 2).
Proof.
  assert (H : ∀ w, w ∈ words (js "Hello, hello world!") → ¬ inheritedName w).
  { intros w Hw. vm_compute in Hw. each_word Hw. }
  assert (Hin : js "hello" ∈ words (js "Hello, hello world!")).
  { vm_compute. apply list_elem_of_here. }
  split; [exact H|].
  exact (proj1 (proj1 (proj2 (getWordCounts_exact (js "Hello, hello world!") H))
                  (js "hello") Hin)).
Defined.

(** Whatever the runtime's conversion does elsewhere, it reads ["3"] as 3,
    and then the string ["3"] is green. *)
Lemma colorWord_numeric_string parse colours word :
  parse (js "3") = Finite 3 →
  colorWord parse colours word (VString (js "3")) = chalk colours Green word.
Proof. intros H. unfold colorWord, betweenTwoAndFive. simpl. by rewrite H. Qed.


(** C6 as stated fails: for ["a\n"] the line after the line feed is
    rendered as the line [" "], which is not empty. *)
Lemma trailing_newline_counterexample :
  console (snd (printColoredLines digitsToNumber false (js "a" ++ [10]) ∅
                  (World noFile []))) = [js "a "; js " "] ∧
  js " " ≠ [].
Proof. split; [vm_compute; reflexivity|discriminate]. Qed.

(** C6 at ["a\n"]: two lines, the second rendered as [" "]. *)
Lemma trailing_newline_rendered_witness :
  (length (splitLines (js "a" ++ [10%N])) ≤ 15)%nat ∧
  last (splitLines (js "a" ++ [10])) = Some [].
Proof.
  assert (H : (length (splitLines (js "a" ++ [10%N])) ≤ 15)%nat)
    by (vm_compute; lia).
  split; [exact H|].
  exact (proj1 (trailing_newline_rendered digitsToNumber false (js "a") ∅
                  (World noFile []) H)).
Defined.

(** C7 on a file system without the file. *)
Lemma processFile_read_error_witness :
  files (World noFile []) (js "declaration.txt") = inl ENOENT ∧
  processFile digitsToNumber true (World noFile []) = (Thrown ENOENT, World noFile []).
Proof.
  split; [reflexivity|].
  exact (proj1 (processFile_read_error digitsToNumber true (World noFile []) ENOENT eq_refl)).
Defined.

(** X17 at [aKelvinB]: the token [a] of the line is looked up as
    [undefined], and the tokenizations disagree. *)
Lemma undefined_lookup_means_disagreement_witness :
  js "a" ∈ renderedTokens aKelvinB ∧
  getProperty (getWordCounts aKelvinB) (toLowerCase (js "a")) = VUndefined ∧
  ¬ tokenizationsAgree aKelvinB.
Proof.
  assert (H : js "a" ∈ renderedTokens aKelvinB).
  { vm_compute. apply list_elem_of_here. }
  assert (U : getProperty (getWordCounts aKelvinB) (toLowerCase (js "a")) = VUndefined).
  { vm_compute. reflexivity. }
  split; [exact H|]. split; [exact U|].
  exact (proj1 (undefined_lookup_means_disagreement aKelvinB (js "a") H) U).
Defined.

(** The whole run on a file that holds ["cat dog cat\n"]. *)
Example processFile_example :
  processFile digitsToNumber false (World (oneFile (js "cat dog cat" ++ [10])) []) =
    (Returned tt,
     World (oneFile (js "cat dog cat" ++ [10])) [js "cat dog cat "; js " "]).
Proof.
  rewrite (processFile_reads _ _ _ (js "cat dog cat" ++ [10])) by reflexivity.
  vm_compute. reflexivity.
Qed.

(** ** Closed instances of the further properties *)

(** X8 at ["Constructor constructor"]: two occurrences, two ["1"]. *)
Lemma getWordCounts_constructor_string_witness :
  js "constructor" ∈ words (js "Constructor constructor") ∧
  getWordCounts (js "Constructor constructor") !! js "constructor" =
    Some (VString (js "function Object() { [native code] }11")).
Proof.
  assert (H : js "constructor" ∈ words (js "Constructor constructor")).
  { vm_compute. apply list_elem_of_here. }
  split; [exact H|].
  exact (getWordCounts_constructor_string (js "Constructor constructor") H).
Defined.

(** X10 at ["a b"] and ["b c"]: [b] is counted twice. *)
Lemma getWordCounts_additive_witness :
  (∀ w, w ∈ words (js "a b") ++ words (js "b c") → ¬ inheritedName w) ∧
  js "b" ∈ words (js "a b") ++ words (js "b c") ∧
  getWordCounts (js "a b" ++ js " " ++ js "b c") !! js "b" = Some (num 2).
Proof.
  assert (H : ∀ w, w ∈ words (js "a b") ++ words (js "b c") → ¬ inheritedName w).
  { intros w Hw. vm_compute in Hw. each_word Hw. }
  assert (Hb : js "b" ∈ words (js "a b") ++ words (js "b c")).
  { vm_compute. apply list_elem_of_further, list_elem_of_here. }
  split; [exact H|]. split; [exact Hb|].
  exact (getWordCounts_additive (js "a b") (js "b c") (js "b") H Hb).
Defined.

(** X12 at ["Hello"]: the key [hello]. *)
Lemma getWordCounts_key_shape_witness :
  js "hello" ∈ dom (getWordCounts (js "Hello")) ∧
  Forall (λ c, isKeyChar c = true) (js "hello").
Proof.
  assert (H : js "hello" ∈ dom (getWordCounts (js "Hello"))).
  { apply elem_of_dom. vm_compute. by eexists. }
  split; [exact H|].
  exact (proj2 (getWordCounts_key_shape (js "Hello") (js "hello") H)).
Defined.

(** X13 at ["a b A"]: the token [A] occurs twice as [a], so it is green. *)
Lemma rendered_token_colour_witness :
  (∀ w, w ∈ words (js "a b A") → ¬ inheritedName w) ∧
  isAscii (js "a b A") ∧
  js "A" ∈ renderedTokens (js "a b A") ∧
  colorWord digitsToNumber true (js "A")
    (getProperty (getWordCounts (js "a b A")) (toLowerCase (js "A"))) =
    chalk true Green (js "A").
Proof.
  assert (H : ∀ w, w ∈ words (js "a b A") → ¬ inheritedName w).
  { intros w Hw. vm_compute in Hw. each_word Hw. }
  assert (Hascii : isAscii (js "a b A")).
  { unfold isAscii. simpl. repeat constructor. }
  assert (Htok : js "A" ∈ renderedTokens (js "a b A")).
  { vm_compute. do 2 apply list_elem_of_further. apply list_elem_of_here. }
  split; [exact H|]. split; [exact Hascii|]. split; [exact Htok|].
  exact (proj2 (rendered_token_colour digitsToNumber true
                  (js "a b A") (js "A") H Hascii Htok)).
Defined.

(** X14 at ["Constructor"]: a single occurrence, and red. *)
Lemma constructor_token_red_witness :
  (∀ tail, digitsToNumber (functionObjectText ++ tail) = NaN) ∧
  isAscii (js "Constructor") ∧
  js "Constructor" ∈ renderedTokens (js "Constructor") ∧
  toLowerCase (js "Constructor") = js "constructor" ∧
  colorWord digitsToNumber true (js "Constructor")
    (getProperty (getWordCounts (js "Constructor")) (toLowerCase (js "Constructor"))) =
    chalk true Red (js "Constructor").
Proof.
  assert (Hnan : ∀ tail, digitsToNumber (functionObjectText ++ tail) = NaN)
    by (intros tail; reflexivity).
  assert (Hascii : isAscii (js "Constructor")).
  { unfold isAscii. simpl. repeat constructor. }
  assert (Htok : js "Constructor" ∈ renderedTokens (js "Constructor")).
  { vm_compute. apply list_elem_of_here. }
  assert (Hlow : toLowerCase (js "Constructor") = js "constructor") by reflexivity.
  split; [exact Hnan|]. split; [exact Hascii|]. split; [exact Htok|].
  split; [exact Hlow|].
  exact (constructor_token_red digitsToNumber true
           (js "Constructor") (js "Constructor") Hnan Hascii Htok Hlow).
Defined.

(** X15 at the word ["cat"] with the count 3. *)
Lemma colorWord_strip_witness :
  Forall (λ c, c ≠ ESC ∧ c ≠ 10) (js "cat") ∧
  stripColor (colorWord digitsToNumber true (js "cat") (num 3)) = js "cat".
Proof.
  assert (H : Forall (λ c, c ≠ ESC ∧ c ≠ 10) (js "cat")).
  { simpl. repeat (constructor; [split; discriminate|]). constructor. }
  split; [exact H|].
  exact (colorWord_strip digitsToNumber true (js "cat") (num 3) H).
Defined.

(** ** The word [__proto__] *)

(** C8, at the input where the code departs from it.  The content
    ["__proto__"] is ASCII and the two tokenizations agree on it, yet the
    table built from it is empty: the rendered token [__proto__] is not
    found in the table.  Its lookup gives the inherited prototype object,
    not a count, and the word, which occurs once, is wrapped in red. *)
Theorem proto_token_not_in_table :
  isAscii (js "__proto__") ∧
  tokenizationsAgree (js "__proto__") ∧
  js "__proto__" ∈ renderedTokens (js "__proto__") ∧
  words (js "__proto__") = [js "__proto__"] ∧
  getWordCounts (js "__proto__") = ∅ ∧
  getWordCounts (js "__proto__") !! toLowerCase (js "__proto__") = None ∧
  getProperty (getWordCounts (js "__proto__")) (toLowerCase (js "__proto__")) =
    VObject ObjectPrototype ∧
  colorWord digitsToNumber true (js "__proto__")
    (getProperty (getWordCounts (js "__proto__")) (toLowerCase (js "__proto__"))) =
    chalk true Red (js "__proto__").
Proof.
  split; [unfold isAscii; simpl; repeat constructor|].
  split; [vm_compute; reflexivity|].
  split; [vm_compute; apply list_elem_of_here|].
  repeat split; vm_compute; reflexivity.
Qed.
